(** * gin-health: a Gin middleware for the gocraft/health toolkit

    A shallow embedding of the package [ghealth] (two revisions of the same
    file are present: [src/ghealth.go], without panic recovery, and
    [src/unnamed/part_000], with panic recovery) together with the part of
    its collaborators (gocraft/health, gin, fmt, time) that the package
    calls.  Go code that mutates shared objects and may panic is embedded in
    a state monad whose computations end either normally or in a panic; a
    panic keeps the state reached so far, as in Go. *)

From stdpp Require Import gmap strings list.
From Stdlib Require Import ZArith Lia.

Local Open Scope Z_scope.

(** ** Go values, errors and panics *)

(** Addresses of heap-allocated [health.Stream] objects. *)
Definition loc := nat.

(** A [*health.Stream]: the nil pointer or the address of a stream. *)
Inductive StreamPtr :=
| nilStream
| streamAt (l : loc).

(** A [time.Time], as the number of nanoseconds since the Unix epoch.  The
    range of [time.Time] (64-bit seconds) is far wider than 64-bit
    nanoseconds, so the count is an unbounded integer. *)
Definition Time := Z.

(** A [time.Duration]: an [int64] count of nanoseconds. *)
Definition Duration := Z.

(** Values of Go's [error] interface met by this package. *)
Inductive error :=
| errorString (msg : string)
    (* errors.New(msg) and the like, e.g. what net returns on a failed dial *)
| TypeAssertionError (have want : string)
    (* *runtime.TypeAssertionError, a runtime.Error *)
| NilDereference
    (* runtime error: invalid memory address or nil pointer dereference *)
| PanicNilError.
    (* *runtime.PanicNilError: panic called with a nil argument *)

(** Values of the empty interface [interface{}] stored in a gin context or
    carried by a panic. *)
Inductive any :=
| anyNil
| anyStream (p : StreamPtr)
| anyTime (t : Time)
| anyError (e : error)
| anyString (s : string)
| anyInt (n : Z).

(** The dynamic type of an interface value, as the runtime prints it. *)
Definition typeName (v : any) : string :=
  match v with
  | anyNil => "nil"
  | anyStream _ => "*health.Stream"
  | anyTime _ => "time.Time"
  | anyError (errorString _) => "*errors.errorString"
  | anyError (TypeAssertionError _ _) => "*runtime.TypeAssertionError"
  | anyError NilDereference => "runtime.errorString"
  | anyError PanicNilError => "*runtime.PanicNilError"
  | anyString _ => "string"
  | anyInt _ => "int"
  end.

(** How a Go call ends: it returns a value or it panics with a value. *)
Inductive outcome (A : Type) :=
| Return (a : A)
| Panic (v : any).
Arguments Return {A} a.
Arguments Panic {A} v.

(** Computations over a mutable state [S]. *)
Definition M (S A : Type) : Type := S -> outcome A * S.

Definition ret {S A} (a : A) : M S A := fun s => (Return a, s).

Definition panic {S A} (v : any) : M S A := fun s => (Panic v, s).

Definition bind {S A B} (m : M S A) (k : A -> M S B) : M S B :=
  fun s =>
    match m s with
    | (Return a, s') => k a s'
    | (Panic v, s') => (Panic v, s')
    end.

Declare Scope go_scope.
Delimit Scope go_scope with go.
Notation "x <- m ;; k" := (bind m (fun x => k))
  (at level 100, m at next level, right associativity) : go_scope.
Notation "m ;;; k" := (bind m (fun _ => k))
  (at level 100, right associativity) : go_scope.

(** The value [recover()] yields in a deferred call while panicking with
    [v].  Since Go 1.21 a [panic(nil)] is raised as a
    [*runtime.PanicNilError], so the recovered value is never nil. *)
Definition recovered (v : any) : any :=
  match v with
  | anyNil => anyError PanicNilError
  | _ => v
  end.

(** [defer func() { if rval := recover(); rval != nil { handler rval } }()]
    around [body]: when [body] returns, [recover()] is nil and the deferred
    call does nothing; when it panics, the panic is stopped and [handler]
    runs on the recovered value, and a panic of [handler] itself leaves the
    function panicking with the new value. *)
Definition deferRecover {S} (body : M S unit) (handler : any -> M S unit)
  : M S unit :=
  fun s =>
    match body s with
    | (Return _, s') => (Return tt, s')
    | (Panic v, s') => handler (recovered v) s'
    end.

(** The type assertion [v.(error)]. *)
Definition assertError {S} (v : any) : M S error :=
  match v with
  | anyError e => ret e
  | _ => panic (anyError (TypeAssertionError (typeName v) "error"))
  end.

(** The type assertion [v.( *health.Stream)]. *)
Definition assertStream {S} (v : any) : M S StreamPtr :=
  match v with
  | anyStream p => ret p
  | _ => panic (anyError (TypeAssertionError (typeName v) "*health.Stream"))
  end.

(** ** Package time *)

Module time.

Definition Nanosecond : Duration := 1.
Definition Microsecond : Duration := 1000 * Nanosecond.
Definition Millisecond : Duration := 1000 * Microsecond.
Definition Second : Duration := 1000 * Millisecond.
Definition Minute : Duration := 60 * Second.

Definition minDuration : Duration := - 2 ^ 63.
Definition maxDuration : Duration := 2 ^ 63 - 1.

(** [t.Sub(u)]: the duration [t - u]; when it does not fit a [Duration]
    the minimum or the maximum duration is returned. *)
Definition Sub (t u : Time) : Duration :=
  let d := t - u in
  if d <? minDuration then minDuration
  else if maxDuration <? d then maxDuration
  else d.

(** [d.Nanoseconds()]: the duration as an [int64] nanosecond count. *)
Definition Nanoseconds (d : Duration) : Z := d.

(** The zero [time.Time{}]: January 1, year 1, 00:00:00 UTC. *)
Definition zeroTime : Time := -62135596800 * Second.

End time.

(** [health.Job]: the stream it reports to and its name. *)
Record Job := { jobStream : StreamPtr; JobName : string }.

(** ** Package health (gocraft/health), as far as this package calls it *)

Module health.

Inductive Writer :=
| Stdout.   (* os.Stdout *)

(** A [*health.StatsDSink], by the address and prefix it was built for. *)
Record StatsDSink := { sdAddr : string; sdPrefix : string }.

(** A [*health.JsonPollingSink], by its two durations. *)
Record JsonPollingSink :=
  { intervalDuration : Duration; intervalsDuration : Duration }.

(** Implementations of the interface [health.Sink]; a [*StatsDSink] put
    into the interface may be a nil pointer. *)
Inductive Sink :=
| WriterSink (w : Writer)
| StatsD (s : option StatsDSink)
| JsonPolling (s : JsonPollingSink).

(** [health.Stream]: the sinks, in the order they were added, and the
    embedded [*Job] whose methods ([EventErr] among them) the stream
    promotes; the embedded pointer is nil in a zero-value [health.Stream{}]. *)
Record Stream := { Sinks : list Sink; embeddedJob : option Job }.

(** An error event emitted on a stream, with the sinks that received it. *)
Record ErrEvent :=
  { evStream : loc; evName : string; evErr : error; evSinks : list Sink }.

(** A sink whose [EmitEventErr] can be called: any but a nil
    [*StatsDSink], whose method dereferences its receiver. *)
Definition liveSink (k : Sink) : bool :=
  match k with
  | StatsD None => false
  | _ => true
  end.

(** The loop [for _, sink := range sinks { sink.EmitEventErr(...) }]: the
    sinks that receive the event, in order, and whether the loop panicked
    (it stops at the first nil sink). *)
Fixpoint emitTo (sinks : list Sink) : list Sink * bool :=
  match sinks with
  | [] => ([], false)
  | k :: rest =>
      if liveSink k
      then let '(received, panicked) := emitTo rest in (k :: received, panicked)
      else ([], true)
  end.

End health.

(** ** The process state outside a request *)

Record World := mkWorld
  { heap : gmap loc health.Stream;             (* allocated streams *)
    stdout : list string;                      (* lines printed by fmt.Println *)
    events : list health.ErrEvent;             (* error events emitted so far *)
    dials : list (string * string);            (* calls of NewStatsDSink *)
    servers : list (health.JsonPollingSink * string);  (* StartServer calls *)
    clock : Time;                              (* the wall clock *)
    goroutines : list string;
      (* addresses of the [go http.ListenAndServe(addr, mux)] not yet run *)
    listeners : list string;                   (* addresses being listened on *)
    bindable : string -> bool }.
      (* the operating system: whether listening on an address succeeds *)

Definition withHeap (h : gmap loc health.Stream) (w : World) : World :=
  mkWorld h (stdout w) (events w) (dials w) (servers w) (clock w)
    (goroutines w) (listeners w) (bindable w).
Definition withStdout (o : list string) (w : World) : World :=
  mkWorld (heap w) o (events w) (dials w) (servers w) (clock w)
    (goroutines w) (listeners w) (bindable w).
Definition withEvents (e : list health.ErrEvent) (w : World) : World :=
  mkWorld (heap w) (stdout w) e (dials w) (servers w) (clock w)
    (goroutines w) (listeners w) (bindable w).
Definition withDials (d : list (string * string)) (w : World) : World :=
  mkWorld (heap w) (stdout w) (events w) d (servers w) (clock w)
    (goroutines w) (listeners w) (bindable w).
Definition withServers (s : list (health.JsonPollingSink * string)) (w : World)
  : World :=
  mkWorld (heap w) (stdout w) (events w) (dials w) s (clock w)
    (goroutines w) (listeners w) (bindable w).
Definition withGoroutines (g : list string) (w : World) : World :=
  mkWorld (heap w) (stdout w) (events w) (dials w) (servers w) (clock w)
    g (listeners w) (bindable w).
Definition withListeners (a : list string) (w : World) : World :=
  mkWorld (heap w) (stdout w) (events w) (dials w) (servers w) (clock w)
    (goroutines w) a (bindable w).

(** [fmt.Println(line)]. *)
Definition Println (line : string) : M World unit :=
  fun w => (Return tt, withStdout (stdout w ++ [line]) w).

(** [time.Now()]. *)
Definition Now : M World Time := fun w => (Return (clock w), w).

(** [time.Since(t)], that is [time.Now().Sub(t)]. *)
Definition Since (t : Time) : M World Duration :=
  (now <- Now ;; ret (time.Sub now t))%go.

(** Reading through a [*health.Stream]; a nil pointer panics. *)
Definition deref (p : StreamPtr) : M World (loc * health.Stream) :=
  fun w =>
    match p with
    | nilStream => (Panic (anyError NilDereference), w)
    | streamAt l =>
        match heap w !! l with
        | Some s => (Return (l, s), w)
        | None => (Panic (anyError NilDereference), w)
        end
    end.

(** [health.NewStream()]: a new stream without sinks, whose embedded job is
    the job "general" of the stream itself. *)
Definition newStream : M World StreamPtr :=
  fun w =>
    let l := fresh (dom (heap w)) in
    (Return (streamAt l),
     withHeap
       (<[l := {| health.Sinks := [];
                  health.embeddedJob :=
                    Some {| jobStream := streamAt l; JobName := "general" |} |}]>
          (heap w)) w).

(** [stream.AddSink(sink)]: appends to the stream's sinks. *)
Definition AddSink (p : StreamPtr) (sink : health.Sink) : M World unit :=
  (ls <- deref p ;;
   fun w =>
     (Return tt,
      withHeap
        (<[ls.1 := {| health.Sinks := health.Sinks ls.2 ++ [sink];
                      health.embeddedJob := health.embeddedJob ls.2 |}]>
           (heap w)) w))%go.

(** [stream.EventErr(name, err)], the method [Job.EventErr] of the
    embedded job: it ranges over [j.Stream.Sinks] and every sink receives
    the error event.  A nil stream, a nil embedded job, a nil stream of that
    job and a nil sink each panic with a nil dereference, the last one after
    the sinks before it have received the event.  (The error the call
    returns is not used by this package.) *)
Definition EventErr (p : StreamPtr) (name : string) (err : error) : M World unit :=
  (ls <- deref p ;;
   match health.embeddedJob ls.2 with
   | None => panic (anyError NilDereference)
   | Some j =>
       (js <- deref (jobStream j) ;;
        fun w =>
          let '(received, panicked) := health.emitTo (health.Sinks js.2) in
          let w' :=
            withEvents (events w ++
              [{| health.evStream := js.1; health.evName := name;
                  health.evErr := err; health.evSinks := received |}]) w in
          if panicked then (Panic (anyError NilDereference), w')
          else (Return tt, w'))
   end)%go.

(** [health.NewJsonPollingSink(intervalDuration, intervalsDuration)]. *)
Definition NewJsonPollingSink (d ds : Duration) : M World health.JsonPollingSink :=
  ret {| health.intervalDuration := d; health.intervalsDuration := ds |}.

(** [sink.StartServer(addr)]: it runs [go http.ListenAndServe(addr, mux)]
    and returns at once; the goroutine has not run yet when it returns. *)
Definition StartServer (sink : health.JsonPollingSink) (addr : string)
  : M World unit :=
  fun w =>
    (Return tt,
     withGoroutines (goroutines w ++ [addr])
       (withServers (servers w ++ [(sink, addr)]) w)).



(** What dialling a statsd daemon yields: the Go pair [(sink, err)]. *)
Definition Dialer := string -> string -> option health.StatsDSink * option error.

(** [health.NewStatsDSink(addr, appname)]: the network decides the result. *)
Definition NewStatsDSink (dial : Dialer) (addr appname : string)
  : M World (option health.StatsDSink * option error) :=
  fun w => (Return (dial addr appname), withDials (dials w ++ [(addr, appname)]) w).

(** The Go test [s != ""] on strings. *)
Definition nonEmpty (s : string) : bool :=
  match s with
  | EmptyString => false
  | String _ _ => true
  end.

(** ** Package gin, as far as this package calls it *)

Module gin.

(** [gin.Context]: the keys set for this request, the request's URI, the
    status of the response writer and whether the response header has been
    written to the client. *)
Record Context := mkContext
  { Keys : gmap string any;
    RequestURI : string;
    status : Z;
    written : bool }.

Definition withKeys (k : gmap string any) (c : Context) : Context :=
  mkContext k (RequestURI c) (status c) (written c).
Definition withStatus (n : Z) (c : Context) : Context :=
  mkContext (Keys c) (RequestURI c) n (written c).
Definition withWritten (b : bool) (c : Context) : Context :=
  mkContext (Keys c) (RequestURI c) (status c) b.

End gin.

(** The state a handler runs in: its request's context and the process. *)
Definition Req : Type := gin.Context * World.

(** A [gin.HandlerFunc], applied to the context of the request. *)
Definition HandlerFunc := M Req unit.

Definition inWorld {A} (m : M World A) : M Req A :=
  fun s => let '(r, w) := m s.2 in (r, (s.1, w)).

(** [c.Set(key, value)]. *)
Definition Set_ (key : string) (value : any) : M Req unit :=
  fun s => (Return tt, (gin.withKeys (<[key := value]> (gin.Keys s.1)) s.1, s.2)).

(** [c.Get(key)]. *)
Definition Get (key : string) : M Req (option any) :=
  fun s => (Return (gin.Keys s.1 !! key), s).

(** The one-character string holding a double quote (ASCII 34). *)
Definition quote : string := String (Ascii.ascii_of_nat 34) EmptyString.

(** [c.MustGet(key)]: the value, or a panic when the key does not exist. *)
Definition MustGet (key : string) : M Req any :=
  (v <- Get key ;;
   match v with
   | Some value => ret value
   | None => panic (anyString ("Key " +:+ quote +:+ key +:+ quote +:+ " does not exist"))
   end)%go.

(** [c.Request.RequestURI]; gin sets [c.Request] for every request it
    serves. *)
Definition getRequestURI : M Req string :=
  fun s => (Return (gin.RequestURI s.1), s).

Definition StatusInternalServerError : Z := 500.

(** [c.Writer.WriteHeader(code)]: sets the status of the response to a
    positive code that differs from the current one, unless the header has
    been written already: then gin (from v1.9 on) only warns and leaves the
    status, and the client has got the earlier status in every version. *)
Definition WriteHeader (code : Z) : M Req unit :=
  fun s =>
    (Return tt,
     if (0 <? code) && negb (gin.status s.1 =? code)
     then (if gin.written s.1 then s else (gin.withStatus code s.1, s.2))
     else s).

(** [c.Writer.WriteHeaderNow()]: sends the header with the current status,
    as every write of a response body does first. *)
Definition WriteHeaderNow : M Req unit :=
  fun s => (Return tt, (gin.withWritten true s.1, s.2)).

(** [stream.NewJob(name)]: a pointer to a new job; the stream is not read,
    so a nil stream does not panic here. *)
Definition NewJob {S} (p : StreamPtr) (name : string) : M S (option Job) :=
  ret (Some {| jobStream := p; JobName := name |}).

(** ** The package, revision without recovery: src/ghealth.go *)

Module Ghealth.

Definition defaultStreamKey : string := "github.com/utrack/gin-health".
Definition defaultJobKey : string := "github.com/utrack/gin-health|job".

(** [NewStream(statsd, appname, serversink)]. *)
Definition NewStream (dial : Dialer) (statsd appname serversink : string)
  : M World StreamPtr :=
  (stream <- newStream ;;
   (if nonEmpty statsd then
      (r <- NewStatsDSink dial statsd appname ;;
       match r.2 with
       | Some err =>
           (Println "HEALTH: Adding stdout health sink..." ;;;
            AddSink stream (health.WriterSink health.Stdout) ;;;
            EventErr stream "new_statsd_sink" err)
       | None =>
           (Println "HEALTH: Adding statsd health sink..." ;;;
            AddSink stream (health.StatsD r.1))
       end)
    else
      (Println "HEALTH: Adding stdout health sink..." ;;;
       AddSink stream (health.WriterSink health.Stdout))) ;;;
   (if nonEmpty serversink then
      (sink <- NewJsonPollingSink time.Minute (time.Minute * 5) ;;
       AddSink stream (health.JsonPolling sink) ;;;
       StartServer sink serversink ;;;
       Println "HEALTH: Adding json health sink...")
    else ret tt) ;;;
   ret stream)%go.

(** [Health(stream)], the handler it returns; [next] is what [c.Next()]
    runs, the rest of the handler chain. *)
Definition Health (next : HandlerFunc) (stream : StreamPtr) : HandlerFunc :=
  (Set_ defaultStreamKey (anyStream stream) ;;;
   next)%go.

(** [Job(c, name)]. *)
Definition Job (name : string) : M Req (option Job) :=
  (v <- MustGet defaultStreamKey ;;
   stream <- assertStream v ;;
   job <- NewJob stream name ;;
   now <- inWorld Now ;;
   Set_ defaultJobKey (anyTime now) ;;;
   ret job)%go.

(** [TimeSince(t)]. *)
Definition TimeSince (t : Time) : M World Z :=
  (d <- Since t ;; ret (time.Nanoseconds d))%go.

End Ghealth.

(** ** The package, revision with recovery: src/unnamed/part_000 *)

Module GhealthRecovery.

Definition defaultStreamKey : string := "github.com/utrack/gin-health".
Definition defaultJobKey : string := "github.com/utrack/gin-health|job".

(** [NewStream(statsd, appname, serversink)]. *)
Definition NewStream (dial : Dialer) (statsd appname serversink : string)
  : M World StreamPtr :=
  (stream <- newStream ;;
   (if nonEmpty statsd then
      (r <- NewStatsDSink dial statsd appname ;;
       match r.2 with
       | Some err =>
           (Println "HEALTH: Adding stdout health sink..." ;;;
            AddSink stream (health.WriterSink health.Stdout) ;;;
            EventErr stream "new_statsd_sink" err)
       | None =>
           (Println "HEALTH: Adding statsd health sink..." ;;;
            AddSink stream (health.StatsD r.1))
       end)
    else
      (Println "HEALTH: Adding stdout health sink..." ;;;
       AddSink stream (health.WriterSink health.Stdout))) ;;;
   (if nonEmpty serversink then
      (sink <- NewJsonPollingSink time.Minute (time.Minute * 5) ;;
       AddSink stream (health.JsonPolling sink) ;;;
       StartServer sink serversink ;;;
       Println "HEALTH: Adding json health sink...")
    else ret tt) ;;;
   ret stream)%go.

(** The body of the deferred call of [Health] once [recover()] yielded the
    non-nil [rval]: the arguments of [EventErr] are evaluated left to
    right, so the type assertion runs before anything is emitted. *)
Definition onPanic (stream : StreamPtr) (rval : any) : M Req unit :=
  (uri <- getRequestURI ;;
   err <- assertError rval ;;
   inWorld (EventErr stream ("Panic at " +:+ uri) err) ;;;
   WriteHeader StatusInternalServerError)%go.

(** [Health(stream)], the handler it returns; [next] is what [c.Next()]
    runs, the rest of the handler chain. *)
Definition Health (next : HandlerFunc) (stream : StreamPtr) : HandlerFunc :=
  deferRecover
    (Set_ defaultStreamKey (anyStream stream) ;;;
     next)%go
    (onPanic stream).

(** [Job(c, name)]. *)
Definition Job (name : string) : M Req (option Job) :=
  (v <- MustGet defaultStreamKey ;;
   stream <- assertStream v ;;
   job <- NewJob stream name ;;
   now <- inWorld Now ;;
   Set_ defaultJobKey (anyTime now) ;;;
   ret job)%go.

(** [TimeSince(t)]. *)
Definition TimeSince (t : Time) : M World Z :=
  (d <- Since t ;; ret (time.Nanoseconds d))%go.

End GhealthRecovery.

(** ** Observations used in the statements *)

(** The sinks attached to the stream [p] points to. *)
Definition sinksOf (p : StreamPtr) (w : World) : list health.Sink :=
  match p with
  | nilStream => []
  | streamAt l =>
      match heap w !! l with
      | Some s => health.Sinks s
      | None => []
      end
  end.

(** The JSON polling sink [NewStream] builds: one minute, five minutes. *)
Definition jsonSink : health.JsonPollingSink :=
  {| health.intervalDuration := 60000000000;
     health.intervalsDuration := 300000000000 |}.

(** What the last part of [NewStream] attaches for a bind address. *)
Definition jsonSinks (serversink : string) : list health.Sink :=
  if nonEmpty serversink then [health.JsonPolling jsonSink] else [].

(** Whether an address names a port, as in "host:port": listening on an
    address without a port fails ("missing port in address"). *)
Fixpoint hasPort (addr : string) : bool :=
  match addr with
  | EmptyString => false
  | String a rest => if Ascii.eqb a (Ascii.ascii_of_nat 58) then true else hasPort rest
  end.

(** A world before anything happened, at 2026-11-01 00:00:00 UTC, on a
    machine where every address with a port can be listened on. *)
Definition world0 : World :=
  mkWorld ∅ [] [] [] [] (1793491200 * time.Second) [] [] hasPort.

(** A network where no statsd daemon can be reached. *)
Definition unreachable : Dialer :=
  fun addr _ => (None, Some (errorString ("dial udp " +:+ addr +:+ ": no route to host"))).

(** A network where every statsd daemon is reached. *)
Definition reachable : Dialer :=
  fun addr app => (Some {| health.sdAddr := addr; health.sdPrefix := app |}, None).

(** A request for [uri] with no key set and no status written. *)
Definition request0 (uri : string) : Req :=
  (gin.mkContext ∅ uri 200 false, world0).

(** The two revisions of the package, and their functions by revision. *)
Inductive Revision :=
| Plain        (* src/ghealth.go *)
| Recovering.  (* src/unnamed/part_000 *)

Definition streamKey (r : Revision) : string :=
  match r with
  | Plain => Ghealth.defaultStreamKey
  | Recovering => GhealthRecovery.defaultStreamKey
  end.

Definition jobKey (r : Revision) : string :=
  match r with
  | Plain => Ghealth.defaultJobKey
  | Recovering => GhealthRecovery.defaultJobKey
  end.

Definition NewStreamOf (r : Revision) :=
  match r with
  | Plain => Ghealth.NewStream
  | Recovering => GhealthRecovery.NewStream
  end.

Definition HealthOf (r : Revision) :=
  match r with
  | Plain => Ghealth.Health
  | Recovering => GhealthRecovery.Health
  end.

Definition JobOf (r : Revision) :=
  match r with
  | Plain => Ghealth.Job
  | Recovering => GhealthRecovery.Job
  end.

Definition TimeSinceOf (r : Revision) :=
  match r with
  | Plain => Ghealth.TimeSince
  | Recovering => GhealthRecovery.TimeSince
  end.

(** The request state right after [c.Set(defaultStreamKey, stream)]. *)
Definition streamSet (r : Revision) (stream : StreamPtr) (s : Req) : Req :=
  (gin.withKeys (<[streamKey r := anyStream stream]> (gin.Keys s.1)) s.1, s.2).

(** A request, for [uri], handled after the middleware stored [stream]. *)
Definition requestWith (stream : StreamPtr) (uri : string) : Req :=
  (gin.mkContext {[ Ghealth.defaultStreamKey := anyStream stream ]} uri 200 false,
   world0).

(** A world with one stream, at address 0, whose only sink is the stdout
    writer sink: what [NewStream("", "", "")] leaves. *)
Definition world1 : World :=
  (Ghealth.NewStream unreachable EmptyString EmptyString EmptyString world0).2.

(** A downstream handler that starts a job, as in the package's example. *)
Definition startsJob (r : Revision) : HandlerFunc :=
  (JobOf r "some_route" ;;; ret tt)%go.

(** A downstream handler that runs [h] only where some value is stored
    under the stream key, and does nothing elsewhere. *)
Definition onlyWithStream (r : Revision) (h : HandlerFunc) : HandlerFunc :=
  fun s =>
    match gin.Keys s.1 !! streamKey r with
    | Some _ => h s
    | None => (Return tt, s)
    end.

(** The line [NewStream] prints when it attaches a sink of this kind. *)
Definition sinkLine (k : health.Sink) : string :=
  match k with
  | health.WriterSink _ => "HEALTH: Adding stdout health sink..."
  | health.StatsD _ => "HEALTH: Adding statsd health sink..."
  | health.JsonPolling _ => "HEALTH: Adding json health sink..."
  end.

(** The world once the wall clock has moved to [t]. *)
Definition withClock (t : Time) (w : World) : World :=
  mkWorld (heap w) (stdout w) (events w) (dials w) (servers w) t
    (goroutines w) (listeners w) (bindable w).

(** The context of a request once [key] holds [value]. *)
Definition keySet (key : string) (value : any) (c : gin.Context) : gin.Context :=
  gin.withKeys (<[key := value]> (gin.Keys c)) c.

(** A downstream handler that sends the response header, with the status
    set so far, and then panics with an error. *)
Definition answersThenPanics (e : error) : HandlerFunc :=
  (WriteHeaderNow ;;;
   panic (anyError e))%go.

(** A world whose only stream, at address 0, is a zero-value
    [health.Stream{}]: no sinks and a nil embedded job. *)
Definition worldZeroStream : World :=
  withHeap {[ 0%nat := {| health.Sinks := []; health.embeddedJob := None |} ]}
    world0.

(** ** Running the operations *)

(** Steps of the symbolic execution of the monadic code. *)
Ltac run :=
  repeat (cbv beta iota zeta delta
              [bind ret panic newStream AddSink EventErr deref Println
               NewStatsDSink NewJsonPollingSink StartServer withHeap
               withStdout withEvents withDials withServers withGoroutines
               withListeners];
          cbn [fst snd heap stdout events dials servers clock goroutines
               listeners bindable health.Sinks health.embeddedJob jobStream
               health.emitTo health.liveSink app];
          try rewrite !lookup_insert_eq).

Ltac runReq :=
  cbv beta iota zeta delta
      [bind ret panic MustGet Get assertStream assertError NewJob inWorld Now
       Set_ getRequestURI WriteHeader WriteHeaderNow deferRecover];
  cbn [fst snd].

(** The address [health.NewStream()] picks is not in use. *)
Lemma fresh_loc_unused (w : World) : heap w !! fresh (dom (heap w)) = None.
Proof. apply not_elem_of_dom, is_fresh. Qed.

(** Both revisions have the same [NewStream]. *)
Lemma NewStreamOf_plain (r : Revision) : NewStreamOf r = Ghealth.NewStream.
Proof. destruct r; reflexivity. Qed.

(** [NewStream] in full: it returns a stream at an unused address, and the
    world it leaves is determined by the two addresses and by the dial. *)
Lemma NewStream_runs (r : Revision) (dial : Dialer)
    (statsd appname serversink : string) (w : World) :
  exists l w',
    NewStreamOf r dial statsd appname serversink w = (Return (streamAt l), w')
    /\ heap w !! l = None
    /\ sinksOf (streamAt l) w' =
         (if nonEmpty statsd
          then match (dial statsd appname).2 with
               | Some _ => health.WriterSink health.Stdout
               | None => health.StatsD (dial statsd appname).1
               end
          else health.WriterSink health.Stdout) :: jsonSinks serversink
    /\ events w' = events w ++
         (if nonEmpty statsd
          then match (dial statsd appname).2 with
               | Some err =>
                   [{| health.evStream := l; health.evName := "new_statsd_sink";
                       health.evErr := err;
                       health.evSinks := [health.WriterSink health.Stdout] |}]
               | None => []
               end
          else [])
    /\ dials w' = dials w ++ (if nonEmpty statsd then [(statsd, appname)] else [])
    /\ servers w' = servers w ++
         (if nonEmpty serversink then [(jsonSink, serversink)] else []).
Proof.
  rewrite NewStreamOf_plain.
  exists (fresh (dom (heap w))).
  unfold Ghealth.NewStream, jsonSinks, sinksOf.
  destruct (dial statsd appname) as [sk [err|]] eqn:E;
    destruct (nonEmpty statsd); destruct (nonEmpty serversink);
    run; rewrite ?E; run;
    (eexists; split; [reflexivity|]);
    cbn [heap events dials servers]; rewrite lookup_insert_eq;
    (split; [apply fresh_loc_unused|]);
    rewrite ?app_nil_r; repeat split; reflexivity.
Qed.

(** C1: when the statsd address is not empty and building the statsd sink
    fails with [err], [NewStream] (of either revision) returns normally a new
    stream: its result has no error component and it does not panic.  The
    first sink of the stream is the stdout writer sink, followed only by the
    JSON polling sink when one was asked for, so no statsd sink is attached.
    Exactly one error event is added to the events emitted: the event
    [new_statsd_sink] on that stream, carrying [err] and received by the
    writer sink, the only sink at that moment. *)
Theorem NewStream_statsd_failure_falls_back
    (r : Revision) (dial : Dialer) (statsd appname serversink : string)
    (err : error) (w : World) :
  nonEmpty statsd = true ->
  (dial statsd appname).2 = Some err ->
  exists l w',
    NewStreamOf r dial statsd appname serversink w = (Return (streamAt l), w')
    /\ heap w !! l = None
    /\ sinksOf (streamAt l) w' =
         health.WriterSink health.Stdout :: jsonSinks serversink
    /\ events w' = events w ++
         [{| health.evStream := l; health.evName := "new_statsd_sink";
             health.evErr := err;
             health.evSinks := [health.WriterSink health.Stdout] |}].
Proof.
  intros Hs Hd.
  destruct (NewStream_runs r dial statsd appname serversink w)
    as (l & w' & Hrun & Hl & Hsinks & Hev & _).
  rewrite Hs, Hd in Hsinks, Hev.
  exists l, w'. auto.
Qed.

Lemma NewStream_statsd_failure_falls_back_witness :
  exists l w',
    NewStreamOf Recovering unreachable "statsd.server:5000" "yourappname"
      "127.0.0.1:5020" world0 = (Return (streamAt l), w')
    /\ heap world0 !! l = None
    /\ sinksOf (streamAt l) w' =
         health.WriterSink health.Stdout :: jsonSinks "127.0.0.1:5020"
    /\ events w' = events world0 ++
         [{| health.evStream := l; health.evName := "new_statsd_sink";
             health.evErr :=
               errorString "dial udp statsd.server:5000: no route to host";
             health.evSinks := [health.WriterSink health.Stdout] |}].
Proof.
  apply (NewStream_statsd_failure_falls_back Recovering unreachable
           "statsd.server:5000" "yourappname" "127.0.0.1:5020"); reflexivity.
Defined.

(** A sink that differs from each sink of a short list is not in it. *)
Lemma not_in_sinks (x : health.Sink) (l : list health.Sink) :
  Forall (fun y => x <> y) l -> x ∉ l.
Proof.
  intros Hall Hin. rewrite Forall_forall in Hall. exact (Hall x Hin eq_refl).
Qed.

(** C2, as the claim states it, fails: with an empty statsd address and a
    JSON bind address the stream has two sinks, the stdout writer sink and
    the JSON polling sink, not exactly the writer sink. *)
Lemma NewStream_empty_statsd_extra_sink :
  nonEmpty "" = false
  /\ (Ghealth.NewStream unreachable "" "" "127.0.0.1:5020" world0).1
     = Return (streamAt 0%nat)
  /\ sinksOf (streamAt 0%nat)
       (Ghealth.NewStream unreachable "" "" "127.0.0.1:5020" world0).2
     = [health.WriterSink health.Stdout; health.JsonPolling jsonSink]
  /\ sinksOf (streamAt 0%nat)
       (Ghealth.NewStream unreachable "" "" "127.0.0.1:5020" world0).2
     <> [health.WriterSink health.Stdout].
Proof.
  split; [reflexivity|]. split; [reflexivity|].
  assert (E : sinksOf (streamAt 0%nat)
                (Ghealth.NewStream unreachable "" "" "127.0.0.1:5020" world0).2
              = [health.WriterSink health.Stdout; health.JsonPolling jsonSink])
    by reflexivity.
  split; [exact E|]. rewrite E. discriminate.
Qed.

(** C2, amended: the first part of [NewStream] (of either revision) attaches
    exactly one sink, and the JSON polling sink follows it exactly when the
    bind address is not empty.  With an empty statsd address that one sink is
    the stdout writer sink, no statsd sink is attached and no statsd sink
    is built (no dial is recorded).  With a statsd address whose sink is
    built without error, that one sink is the statsd sink that was built,
    reached by one dial, and no writer sink is attached. *)
Theorem NewStream_statsd_branch_selects_one_sink
    (r : Revision) (dial : Dialer) (statsd appname serversink : string)
    (w : World) :
  (nonEmpty statsd = false ->
   exists l w',
     NewStreamOf r dial statsd appname serversink w = (Return (streamAt l), w')
     /\ sinksOf (streamAt l) w' =
          health.WriterSink health.Stdout :: jsonSinks serversink
     /\ (forall s, health.StatsD s ∉ sinksOf (streamAt l) w')
     /\ dials w' = dials w)
  /\
  (nonEmpty statsd = true ->
   (dial statsd appname).2 = None ->
   exists l w',
     NewStreamOf r dial statsd appname serversink w = (Return (streamAt l), w')
     /\ sinksOf (streamAt l) w' =
          health.StatsD (dial statsd appname).1 :: jsonSinks serversink
     /\ (forall o, health.WriterSink o ∉ sinksOf (streamAt l) w')
     /\ dials w' = dials w ++ [(statsd, appname)]).
Proof.
  destruct (NewStream_runs r dial statsd appname serversink w)
    as (l & w' & Hrun & _ & Hsinks & _ & Hd & _).
  split.
  - intros Hs. rewrite Hs in Hsinks, Hd. rewrite app_nil_r in Hd.
    exists l, w'. repeat split; try assumption.
    intros s. rewrite Hsinks. unfold jsonSinks.
    destruct (nonEmpty serversink); apply not_in_sinks; repeat constructor; discriminate.
  - intros Hs Herr. rewrite Hs in Hsinks, Hd. rewrite Herr in Hsinks.
    exists l, w'. repeat split; try assumption.
    intros o. rewrite Hsinks. unfold jsonSinks.
    destruct (nonEmpty serversink); apply not_in_sinks; repeat constructor; discriminate.
Qed.

Lemma NewStream_statsd_branch_selects_one_sink_witness :
  (exists l w',
     NewStreamOf Plain unreachable "" "" "127.0.0.1:5020" world0
       = (Return (streamAt l), w')
     /\ sinksOf (streamAt l) w' =
          health.WriterSink health.Stdout :: jsonSinks "127.0.0.1:5020"
     /\ (forall s, health.StatsD s ∉ sinksOf (streamAt l) w')
     /\ dials w' = dials world0)
  /\
  (exists l w',
     NewStreamOf Plain reachable "statsd.server:5000" "yourappname"
       "127.0.0.1:5020" world0 = (Return (streamAt l), w')
     /\ sinksOf (streamAt l) w' =
          health.StatsD (reachable "statsd.server:5000" "yourappname").1
            :: jsonSinks "127.0.0.1:5020"
     /\ (forall o, health.WriterSink o ∉ sinksOf (streamAt l) w')
     /\ dials w' = dials world0 ++ [("statsd.server:5000", "yourappname")]).
Proof.
  split.
  - apply (proj1 (NewStream_statsd_branch_selects_one_sink Plain unreachable
                    "" "" "127.0.0.1:5020" world0)).
    reflexivity.
  - apply (proj2 (NewStream_statsd_branch_selects_one_sink Plain reachable
                    "statsd.server:5000" "yourappname" "127.0.0.1:5020" world0));
      reflexivity.
Defined.



(** [NewStream] in full, third part: the goroutine it starts, the listeners
    and the operating system it leaves alone, and the embedded job of the
    stream it returns. *)
Lemma NewStream_runs_server (r : Revision) (dial : Dialer)
    (statsd appname serversink : string) (w : World) :
  exists l w' st,
    NewStreamOf r dial statsd appname serversink w = (Return (streamAt l), w')
    /\ heap w' !! l = Some st
    /\ health.embeddedJob st =
         Some {| jobStream := streamAt l; JobName := "general" |}
    /\ goroutines w' = goroutines w ++
         (if nonEmpty serversink then [serversink] else [])
    /\ listeners w' = listeners w
    /\ bindable w' = bindable w.
Proof.
  rewrite NewStreamOf_plain.
  exists (fresh (dom (heap w))).
  unfold Ghealth.NewStream.
  destruct (dial statsd appname) as [sk [err|]] eqn:E;
    destruct (nonEmpty statsd); destruct (nonEmpty serversink);
    run; rewrite ?E; run;
    (eexists _, _; split; [reflexivity|]);
    cbn [heap goroutines listeners bindable]; rewrite lookup_insert_eq;
    (split; [reflexivity|]); cbn [health.embeddedJob];
    rewrite ?app_nil_r; repeat split; reflexivity.
Qed.




(** ** The handlers *)

Lemma JobOf_plain (r : Revision) : JobOf r = Ghealth.Job.
Proof. destruct r; reflexivity. Qed.

Lemma streamKey_plain (r : Revision) : streamKey r = Ghealth.defaultStreamKey.
Proof. destruct r; reflexivity. Qed.

Lemma jobKey_plain (r : Revision) : jobKey r = Ghealth.defaultJobKey.
Proof. destruct r; reflexivity. Qed.

(** C5: in a request context where nothing is stored under the stream key,
    [Job] (of either revision) panics in [MustGet] with the message that the
    key does not exist; it returns no job, and neither the context (no time
    is recorded) nor the world has changed when it panics. *)
Theorem Job_without_stream_panics
    (r : Revision) (name : string) (c : gin.Context) (w : World) :
  gin.Keys c !! streamKey r = None ->
  JobOf r name (c, w) =
    (Panic (anyString ("Key " +:+ quote +:+ "github.com/utrack/gin-health"
                         +:+ quote +:+ " does not exist")),
     (c, w))
  /\ forall job s', JobOf r name (c, w) <> (Return job, s').
Proof.
  rewrite JobOf_plain, streamKey_plain. intros Hkey.
  assert (E : Ghealth.Job name (c, w) =
            (Panic (anyString ("Key " +:+ quote +:+ "github.com/utrack/gin-health"
                                 +:+ quote +:+ " does not exist")), (c, w))).
  { unfold Ghealth.Job. runReq. rewrite Hkey. reflexivity. }
  split; [exact E|]. intros job s'. rewrite E. discriminate.
Qed.

Lemma Job_without_stream_panics_witness :
  JobOf Plain "some_route" (request0 "/some/route") =
    (Panic (anyString ("Key " +:+ quote +:+ "github.com/utrack/gin-health"
                         +:+ quote +:+ " does not exist")),
     request0 "/some/route")
  /\ forall job s',
       JobOf Plain "some_route" (request0 "/some/route") <> (Return job, s').
Proof.
  apply (Job_without_stream_panics Plain "some_route"
           (gin.mkContext ∅ "/some/route" 200 false) world0).
  reflexivity.
Defined.

(** C6: in a request context where a stream pointer is stored under the
    stream key, [Job] (of either revision) returns a non-nil job made from
    that stream with the given name; the only change of state is that the
    current time of the clock is stored under the job key, where [c.Get]
    finds it afterwards, while the stream stays under the stream key. *)
Theorem Job_with_stream
    (r : Revision) (name : string) (p : StreamPtr) (c : gin.Context) (w : World) :
  gin.Keys c !! streamKey r = Some (anyStream p) ->
  JobOf r name (c, w) =
    (Return (Some {| jobStream := p; JobName := name |}),
     (gin.withKeys (<[jobKey r := anyTime (clock w)]> (gin.Keys c)) c, w))
  /\ Get (jobKey r)
       (gin.withKeys (<[jobKey r := anyTime (clock w)]> (gin.Keys c)) c, w) =
     (Return (Some (anyTime (clock w))),
      (gin.withKeys (<[jobKey r := anyTime (clock w)]> (gin.Keys c)) c, w))
  /\ Get (streamKey r)
       (gin.withKeys (<[jobKey r := anyTime (clock w)]> (gin.Keys c)) c, w) =
     (Return (Some (anyStream p)),
      (gin.withKeys (<[jobKey r := anyTime (clock w)]> (gin.Keys c)) c, w)).
Proof.
  rewrite JobOf_plain, streamKey_plain, jobKey_plain. intros Hkey.
  split; [|split].
  - unfold Ghealth.Job. runReq. rewrite Hkey. reflexivity.
  - unfold Get. cbn [fst gin.withKeys gin.Keys].
    rewrite lookup_insert_eq. reflexivity.
  - unfold Get. cbn [fst gin.withKeys gin.Keys].
    rewrite lookup_insert_ne by discriminate. rewrite Hkey. reflexivity.
Qed.

Lemma Job_with_stream_witness :
  JobOf Plain "some_route" (requestWith (streamAt 0%nat) "/some/route") =
    (Return (Some {| jobStream := streamAt 0%nat; JobName := "some_route" |}),
     (gin.withKeys
        (<[jobKey Plain := anyTime (clock world0)]>
           {[ Ghealth.defaultStreamKey := anyStream (streamAt 0%nat) ]})
        (gin.mkContext
           {[ Ghealth.defaultStreamKey := anyStream (streamAt 0%nat) ]}
           "/some/route" 200 false),
      world0)).
Proof.
  refine (proj1 (Job_with_stream Plain "some_route" (streamAt 0%nat)
           (gin.mkContext
              {[ Ghealth.defaultStreamKey := anyStream (streamAt 0%nat) ]}
              "/some/route" 200 false) world0 _)).
  reflexivity.
Defined.

(** C10: in a request context where the stream key holds a value that is not
    a stream pointer (nil included), [Job] (of either revision) panics in the
    type assertion with a [runtime.TypeAssertionError]; it returns neither a
    job nor an error value, and the state is unchanged when it panics.  So a
    missing key is not the only way for [Job] to panic. *)
Theorem Job_with_other_value_panics
    (r : Revision) (name : string) (v : any) (c : gin.Context) (w : World) :
  (forall p, v <> anyStream p) ->
  gin.Keys c !! streamKey r = Some v ->
  JobOf r name (c, w) =
    (Panic (anyError (TypeAssertionError (typeName v) "*health.Stream")), (c, w))
  /\ forall job s', JobOf r name (c, w) <> (Return job, s').
Proof.
  rewrite JobOf_plain, streamKey_plain. intros Hv Hkey.
  assert (E : Ghealth.Job name (c, w) =
            (Panic (anyError (TypeAssertionError (typeName v) "*health.Stream")),
             (c, w))).
  { unfold Ghealth.Job. runReq. rewrite Hkey.
    destruct v; try reflexivity. destruct (Hv p eq_refl). }
  split; [exact E|]. intros job s'. rewrite E. discriminate.
Qed.

Lemma Job_with_other_value_panics_witness :
  JobOf Recovering "some_route"
    (gin.mkContext {[ Ghealth.defaultStreamKey := anyString "mine" ]} "/" 200 false,
     world0) =
    (Panic (anyError (TypeAssertionError "string" "*health.Stream")),
     (gin.mkContext {[ Ghealth.defaultStreamKey := anyString "mine" ]} "/" 200 false,
      world0))
  /\ forall job s',
       JobOf Recovering "some_route"
         (gin.mkContext {[ Ghealth.defaultStreamKey := anyString "mine" ]} "/" 200 false,
          world0) <> (Return job, s').
Proof.
  apply (Job_with_other_value_panics Recovering "some_route" (anyString "mine")
           (gin.mkContext {[ Ghealth.defaultStreamKey := anyString "mine" ]}
              "/" 200 false) world0).
  - discriminate.
  - reflexivity.
Defined.

Lemma HealthOf_plain (next : HandlerFunc) (stream : StreamPtr) (s : Req) :
  Ghealth.Health next stream s = next (streamSet Plain stream s).
Proof. reflexivity. Qed.

Lemma HealthOf_recovering (next : HandlerFunc) (stream : StreamPtr) (s : Req) :
  GhealthRecovery.Health next stream s =
  deferRecover next (GhealthRecovery.onPanic stream)
    (streamSet Recovering stream s).
Proof. reflexivity. Qed.

Lemma streamSet_lookup (r : Revision) (stream : StreamPtr) (s : Req) :
  gin.Keys (streamSet r stream s).1 !! streamKey r = Some (anyStream stream).
Proof. unfold streamSet. cbn [fst gin.withKeys gin.Keys]. apply lookup_insert_eq. Qed.

(** C7: in both revisions the handler runs the rest of the chain exactly
    once, on the request state obtained by storing the stream under the
    stream key (in the revision with recovery, inside the deferred recovery),
    and in that state the key holds the stream.  Hence the handler cannot
    tell two downstream chains apart that agree on every state where the
    stream is set: no downstream handler ever runs without the stream. *)
Theorem Health_sets_stream_before_next
    (r : Revision) (next next' : HandlerFunc) (stream : StreamPtr) (s : Req) :
  (forall s', gin.Keys s'.1 !! streamKey r = Some (anyStream stream) ->
              next s' = next' s') ->
  HealthOf r next stream s = HealthOf r next' stream s
  /\ gin.Keys (streamSet r stream s).1 !! streamKey r = Some (anyStream stream)
  /\ Ghealth.Health next stream s = next (streamSet Plain stream s)
  /\ GhealthRecovery.Health next stream s =
       deferRecover next (GhealthRecovery.onPanic stream)
         (streamSet Recovering stream s).
Proof.
  intros Hagree.
  pose proof (Hagree _ (streamSet_lookup r stream s)) as E.
  split; [|split; [apply streamSet_lookup|split; reflexivity]].
  destruct r; cbn [HealthOf].
  - rewrite !HealthOf_plain. exact E.
  - rewrite !HealthOf_recovering. unfold deferRecover. rewrite E. reflexivity.
Qed.

Lemma Health_sets_stream_before_next_witness :
  HealthOf Recovering (startsJob Recovering) (streamAt 0%nat) (request0 "/x")
  = HealthOf Recovering (onlyWithStream Recovering (startsJob Recovering))
      (streamAt 0%nat) (request0 "/x").
Proof.
  refine (proj1 (Health_sets_stream_before_next Recovering
                   (startsJob Recovering)
                   (onlyWithStream Recovering (startsJob Recovering))
                   (streamAt 0%nat) (request0 "/x") _)).
  intros s' Hs'. unfold onlyWithStream. rewrite Hs'. reflexivity.
Defined.

(** When no sink is a nil pointer, every sink receives the event. *)
Lemma emitTo_live (sinks : list health.Sink) :
  forallb health.liveSink sinks = true -> health.emitTo sinks = (sinks, false).
Proof.
  induction sinks as [|k sinks IH]; cbn [forallb health.emitTo]; [reflexivity|].
  intros H. apply andb_prop in H as [Hk Hrest].
  rewrite Hk, (IH Hrest). reflexivity.
Qed.

(** The deferred call of [Health] on an error value, for a stream whose
    embedded job reports to the stream itself and whose sinks are not nil:
    one event, then [WriteHeader(500)], and a normal return. *)
Lemma onPanic_error_runs
    (l : loc) (st : health.Stream) (name : string) (e : error)
    (c : gin.Context) (w : World) :
  heap w !! l = Some st ->
  health.embeddedJob st = Some {| jobStream := streamAt l; JobName := name |} ->
  forallb health.liveSink (health.Sinks st) = true ->
  GhealthRecovery.onPanic (streamAt l) (anyError e) (c, w) =
    (Return tt,
     (if gin.written c then c else gin.withStatus 500 c,
      withEvents
        (events w ++
           [{| health.evStream := l;
               health.evName := "Panic at " +:+ gin.RequestURI c;
               health.evErr := e;
               health.evSinks := health.Sinks st |}])
        w)).
Proof.
  intros Hl Hjob Hlive. unfold GhealthRecovery.onPanic. runReq.
  cbv beta iota zeta delta [bind ret panic EventErr deref]. cbn [fst snd].
  rewrite Hl. cbn [fst snd]. rewrite Hjob. cbn [jobStream]. rewrite Hl.
  cbn [fst snd]. rewrite (emitTo_live _ Hlive).
  unfold StatusInternalServerError. destruct c as [k u n b].
  cbn [fst snd gin.status gin.written gin.withStatus gin.Keys gin.RequestURI
       Z.ltb Z.compare andb].
  destruct (Z.eqb_spec n 500) as [->|]; destruct b; reflexivity.
Qed.

(** C4, as the claim states it, fails: when the downstream handler has
    written the response header (with status 200) before it panics with an
    error, the handler with recovery emits the event and returns, but the
    response status is not set to 500: it stays 200. *)
Lemma Health_recovery_after_response_keeps_status :
  GhealthRecovery.Health (answersThenPanics (errorString "boom"))
    (streamAt 0%nat) (gin.mkContext ∅ "/some/route" 200 false, world1) =
    (Return tt,
     (gin.mkContext
        {[ GhealthRecovery.defaultStreamKey := anyStream (streamAt 0%nat) ]}
        "/some/route" 200 true,
      withEvents
        [{| health.evStream := 0%nat;
            health.evName := "Panic at /some/route";
            health.evErr := errorString "boom";
            health.evSinks := [health.WriterSink health.Stdout] |}]
        world1))
  /\ gin.status
       (GhealthRecovery.Health (answersThenPanics (errorString "boom"))
          (streamAt 0%nat) (gin.mkContext ∅ "/some/route" 200 false, world1)).2.1
     <> 500.
Proof. split; [reflexivity|discriminate]. Qed.

(** C4, amended: in the revision with recovery, when the rest of the chain
    panics with [v] the handler recovers.  If [v] is an error [e] (a
    [panic(nil)] counting as the error [runtime.PanicNilError]) and the
    stream is one built by [health.NewStream] (allocated, its embedded job
    reporting to the stream itself, no nil sink), exactly one error event is
    emitted on the stream, named "Panic at " followed by the URI of the
    request and carrying [e]; then [WriteHeader(500)] is called, which sets
    the response status to 500 unless the response header was written
    already, in which case the status stays; the handler returns normally:
    the panic is not raised again.  If [v] is neither nil nor an error, the
    unguarded assertion [rval.(error)] panics with a
    [runtime.TypeAssertionError]: the handler panics with it, no event is
    emitted and the status is not set. *)
Theorem Health_recovers_panic
    (next : HandlerFunc) (stream : StreamPtr) (s s1 : Req) (v : any) :
  next (streamSet Recovering stream s) = (Panic v, s1) ->
  (forall e l st name,
     v = anyError e \/ (v = anyNil /\ e = PanicNilError) ->
     stream = streamAt l ->
     heap s1.2 !! l = Some st ->
     health.embeddedJob st = Some {| jobStream := streamAt l; JobName := name |} ->
     forallb health.liveSink (health.Sinks st) = true ->
     GhealthRecovery.Health next stream s =
       (Return tt,
        (if gin.written s1.1 then s1.1 else gin.withStatus 500 s1.1,
         withEvents
           (events s1.2 ++
              [{| health.evStream := l;
                  health.evName := "Panic at " +:+ gin.RequestURI s1.1;
                  health.evErr := e;
                  health.evSinks := health.Sinks st |}])
           s1.2)))
  /\ (v <> anyNil ->
      (forall e, v <> anyError e) ->
      GhealthRecovery.Health next stream s =
        (Panic (anyError (TypeAssertionError (typeName v) "error")), s1)).
Proof.
  intros Hnext. rewrite HealthOf_recovering. unfold deferRecover.
  rewrite Hnext. destruct s1 as [c1 w1]. split.
  - intros e l st name Hv -> Hl Hjob Hlive. cbn [fst snd] in *.
    assert (Hrec : recovered v = anyError e)
      by (destruct Hv as [-> | [-> ->]]; reflexivity).
    rewrite Hrec. apply (onPanic_error_runs l st name e c1 w1 Hl Hjob Hlive).
  - intros Hnil Hv. unfold GhealthRecovery.onPanic. runReq.
    destruct v; try reflexivity; [destruct (Hnil eq_refl)|destruct (Hv e eq_refl)].
Qed.

Lemma Health_recovers_panic_witness :
  GhealthRecovery.Health (panic (anyError (errorString "boom")))
    (streamAt 0%nat) (gin.mkContext ∅ "/some/route" 200 false, world1) =
    (Return tt,
     (gin.mkContext {[ GhealthRecovery.defaultStreamKey := anyStream (streamAt 0%nat) ]}
        "/some/route" 500 false,
      withEvents
        [{| health.evStream := 0%nat;
            health.evName := "Panic at /some/route";
            health.evErr := errorString "boom";
            health.evSinks := [health.WriterSink health.Stdout] |}]
        world1))
  /\ GhealthRecovery.Health (panic (anyString "boom"))
       (streamAt 0%nat) (gin.mkContext ∅ "/some/route" 200 false, world1) =
     (Panic (anyError (TypeAssertionError "string" "error")),
      (gin.mkContext {[ GhealthRecovery.defaultStreamKey := anyStream (streamAt 0%nat) ]}
         "/some/route" 200 false,
       world1)).
Proof.
  split.
  - refine (proj1 (Health_recovers_panic (panic (anyError (errorString "boom")))
                     (streamAt 0%nat)
                     (gin.mkContext ∅ "/some/route" 200 false, world1)
                     _ (anyError (errorString "boom")) eq_refl)
              (errorString "boom") 0%nat
              {| health.Sinks := [health.WriterSink health.Stdout];
                 health.embeddedJob :=
                   Some {| jobStream := streamAt 0%nat; JobName := "general" |} |}
              "general" (or_introl eq_refl) eq_refl _ eq_refl eq_refl).
    reflexivity.
  - refine (proj2 (Health_recovers_panic (panic (anyString "boom"))
                     (streamAt 0%nat)
                     (gin.mkContext ∅ "/some/route" 200 false, world1)
                     _ (anyString "boom") eq_refl) _ _).
    + discriminate.
    + intros e. discriminate.
Defined.

(** The stream has to be one built by [health.NewStream]: with a zero-value
    [health.Stream{}], whose embedded job is nil, the deferred call panics
    in [EventErr] with a nil dereference; nothing is emitted and the status
    is not set. *)
Example Health_recovery_zero_value_stream_panics :
  GhealthRecovery.Health (panic (anyError (errorString "boom")))
    (streamAt 0%nat) (gin.mkContext ∅ "/some/route" 200 false, worldZeroStream) =
    (Panic (anyError NilDereference),
     (gin.mkContext
        {[ GhealthRecovery.defaultStreamKey := anyStream (streamAt 0%nat) ]}
        "/some/route" 200 false,
      worldZeroStream)).
Proof. reflexivity. Qed.

(** C9: the two revisions use the same two context keys, their [NewStream],
    [Job] and [TimeSince] give the same outcome and the same final state on
    every input, and their [Health] handlers do too on every request whose
    downstream chain returns without a panic. *)
Theorem revisions_agree_without_panic
    (next : HandlerFunc) (stream : StreamPtr) (s s1 : Req) (u : unit) :
  next (streamSet Plain stream s) = (Return u, s1) ->
  Ghealth.Health next stream s = GhealthRecovery.Health next stream s
  /\ Ghealth.Health next stream s = (Return tt, s1)
  /\ (forall dial statsd appname serversink w,
        Ghealth.NewStream dial statsd appname serversink w =
        GhealthRecovery.NewStream dial statsd appname serversink w)
  /\ (forall name c, Ghealth.Job name c = GhealthRecovery.Job name c)
  /\ (forall t w, Ghealth.TimeSince t w = GhealthRecovery.TimeSince t w)
  /\ Ghealth.defaultStreamKey = GhealthRecovery.defaultStreamKey
  /\ Ghealth.defaultJobKey = GhealthRecovery.defaultJobKey.
Proof.
  intros Hnext. destruct u.
  assert (E : Ghealth.Health next stream s = (Return tt, s1))
    by (rewrite HealthOf_plain; exact Hnext).
  split; [|split; [exact E|repeat split]].
  rewrite E, HealthOf_recovering. unfold deferRecover.
  change (streamSet Recovering stream s) with (streamSet Plain stream s).
  rewrite Hnext. reflexivity.
Qed.

Lemma revisions_agree_without_panic_witness :
  Ghealth.Health (startsJob Plain) (streamAt 0%nat) (request0 "/some/route")
  = GhealthRecovery.Health (startsJob Plain) (streamAt 0%nat)
      (request0 "/some/route").
Proof.
  refine (proj1 (revisions_agree_without_panic (startsJob Plain)
                   (streamAt 0%nat) (request0 "/some/route") _ tt _)).
  reflexivity.
Defined.

(** The two handlers do differ when the downstream chain panics: the plain
    one lets the panic through, the other one turns it into a status 500. *)
Example revisions_differ_on_panic :
  (Ghealth.Health (panic (anyError (errorString "boom"))) (streamAt 0%nat)
     (gin.mkContext ∅ "/some/route" 200 false, world1)).1
  = Panic (anyError (errorString "boom"))
  /\ (GhealthRecovery.Health (panic (anyError (errorString "boom")))
        (streamAt 0%nat) (gin.mkContext ∅ "/some/route" 200 false, world1)).1
     = Return tt.
Proof. split; reflexivity. Qed.

(** C8, as the claim states it, fails: for the zero [time.Time] (year 1) and
    a clock in 2026, about 2025 years apart, [TimeSince] returns the largest
    [int64], which is not the number of nanoseconds between the two. *)
Lemma TimeSince_zero_time_saturates :
  Ghealth.TimeSince time.zeroTime world0 = (Return 9223372036854775807, world0)
  /\ clock world0 - time.zeroTime = 63929088000000000000
  /\ 9223372036854775807 <> clock world0 - time.zeroTime.
Proof. repeat split. discriminate. Qed.

(** C8, amended: [TimeSince] (of either revision) reads the clock and changes
    nothing; it never panics and checks nothing about [t].  Its result is the
    number of nanoseconds from [t] to the current time brought into the range
    of [int64]: that very number whenever it lies in the range, else the
    nearest bound.  The result is zero exactly when [t] is the current time
    and negative exactly when [t] is in the future. *)
Theorem TimeSince_saturating_difference (r : Revision) (t : Time) (w : World) :
  exists n,
    TimeSinceOf r t w = (Return n, w)
    /\ n = Z.max (- 2 ^ 63) (Z.min (2 ^ 63 - 1) (clock w - t))
    /\ (- 2 ^ 63 <= clock w - t <= 2 ^ 63 - 1 -> n = clock w - t)
    /\ (n = 0 <-> t = clock w)
    /\ (n < 0 <-> clock w < t).
Proof.
  exists (time.Sub (clock w) t).
  split; [destruct r; reflexivity|].
  unfold time.Sub, time.minDuration, time.maxDuration.
  destruct (Z.ltb_spec (clock w - t) (- 2 ^ 63));
    destruct (Z.ltb_spec (2 ^ 63 - 1) (clock w - t)); lia.
Qed.

Lemma TimeSince_saturating_difference_witness :
  TimeSinceOf Plain (clock world0 - 5 * time.Millisecond) world0
  = (Return 5000000, world0).
Proof.
  destruct (TimeSince_saturating_difference Plain
              (clock world0 - 5 * time.Millisecond) world0)
    as (n & Hrun & _ & Hfit & _).
  rewrite Hrun, Hfit; [reflexivity|].
  vm_compute. split; discriminate.
Defined.

(** ** Further properties of [NewStream] *)

(** [NewStream] in full, second part: what it prints, and what it leaves
    alone (the other streams and the clock). *)
Lemma NewStream_runs_frame (r : Revision) (dial : Dialer)
    (statsd appname serversink : string) (w : World) :
  exists l w',
    NewStreamOf r dial statsd appname serversink w = (Return (streamAt l), w')
    /\ heap w !! l = None
    /\ is_Some (heap w' !! l)
    /\ stdout w' = stdout w ++ (sinkLine <$> sinksOf (streamAt l) w')
    /\ (forall l', l' <> l -> heap w' !! l' = heap w !! l')
    /\ clock w' = clock w.
Proof.
  rewrite NewStreamOf_plain.
  exists (fresh (dom (heap w))).
  unfold Ghealth.NewStream, sinksOf.
  destruct (dial statsd appname) as [sk [err|]] eqn:E;
    destruct (nonEmpty statsd); destruct (nonEmpty serversink);
    run; rewrite ?E; run;
    (eexists; split; [reflexivity|]);
    cbn [heap stdout clock]; rewrite lookup_insert_eq;
    (split; [apply fresh_loc_unused|]);
    (split; [eexists; reflexivity|]);
    (split; [cbn [health.Sinks fmap list_fmap app sinkLine];
             rewrite <- ?app_assoc; reflexivity|]);
    (split; [|reflexivity]);
    intros l' Hl'; rewrite !lookup_insert_ne by congruence; reflexivity.
Qed.

(** The number of sinks of the stream [NewStream] returns. *)
Lemma NewStream_sink_count (r : Revision) (dial : Dialer)
    (statsd appname serversink : string) (w : World) :
  exists l w',
    NewStreamOf r dial statsd appname serversink w = (Return (streamAt l), w')
    /\ length (sinksOf (streamAt l) w') =
         (if nonEmpty serversink then 2%nat else 1%nat).
Proof.
  destruct (NewStream_runs r dial statsd appname serversink w)
    as (l & w' & Hrun & _ & Hsinks & _).
  exists l, w'. split; [exact Hrun|].
  rewrite Hsinks. unfold jsonSinks. destruct (nonEmpty serversink); reflexivity.
Qed.

(** Extra X1: for every input and every outcome of the dial, [NewStream] (of
    either revision) returns without a panic a pointer to an allocated
    stream with one sink, or two when the bind address is not empty; never a
    stream without sinks.  It prints exactly one line per sink it attached,
    in the order of the sinks, each line naming the kind of its sink. *)
Theorem NewStream_prints_one_line_per_sink
    (r : Revision) (dial : Dialer) (statsd appname serversink : string)
    (w : World) :
  exists l w',
    NewStreamOf r dial statsd appname serversink w = (Return (streamAt l), w')
    /\ is_Some (heap w' !! l)
    /\ length (sinksOf (streamAt l) w') =
         (if nonEmpty serversink then 2%nat else 1%nat)
    /\ stdout w' = stdout w ++ (sinkLine <$> sinksOf (streamAt l) w').
Proof.
  destruct (NewStream_runs_frame r dial statsd appname serversink w)
    as (l & w' & Hrun & _ & Halloc & Hout & _).
  destruct (NewStream_runs r dial statsd appname serversink w)
    as (l2 & w2 & Hrun2 & _ & Hsinks & _).
  rewrite Hrun in Hrun2. injection Hrun2 as <- <-.
  exists l, w'. repeat split; try assumption.
  rewrite Hsinks. unfold jsonSinks. destruct (nonEmpty serversink); reflexivity.
Qed.

(** Extra X2: [NewStream] emits an error event only when building the statsd
    sink failed: with an empty statsd address, or when the dial returns no
    error, the events emitted are the ones emitted before the call. *)
Theorem NewStream_no_event_without_failure
    (r : Revision) (dial : Dialer) (statsd appname serversink : string)
    (w : World) :
  nonEmpty statsd = false \/ (dial statsd appname).2 = None ->
  exists l w',
    NewStreamOf r dial statsd appname serversink w = (Return (streamAt l), w')
    /\ events w' = events w.
Proof.
  intros Hok.
  destruct (NewStream_runs r dial statsd appname serversink w)
    as (l & w' & Hrun & _ & _ & Hev & _).
  exists l, w'. split; [exact Hrun|]. rewrite Hev.
  destruct Hok as [-> | ->]; [|destruct (nonEmpty statsd)]; apply app_nil_r.
Qed.

Lemma NewStream_no_event_without_failure_witness :
  (exists l w',
     NewStreamOf Plain unreachable "" "yourappname" "127.0.0.1:5020" world0
       = (Return (streamAt l), w')
     /\ events w' = events world0)
  /\
  (exists l w',
     NewStreamOf Plain reachable "statsd.server:5000" "yourappname" "" world0
       = (Return (streamAt l), w')
     /\ events w' = events world0).
Proof.
  split.
  - apply (NewStream_no_event_without_failure Plain unreachable
             "" "yourappname" "127.0.0.1:5020" world0).
    left. reflexivity.
  - apply (NewStream_no_event_without_failure Plain reachable
             "statsd.server:5000" "yourappname" "" world0).
    right. reflexivity.
Defined.

(** Extra X3: with an empty bind address [NewStream] starts no server and
    attaches no JSON polling sink: the stream has exactly the one sink of
    the statsd branch, whatever the statsd address and the dial. *)
Theorem NewStream_without_serversink
    (r : Revision) (dial : Dialer) (statsd appname serversink : string)
    (w : World) :
  nonEmpty serversink = false ->
  exists l w' first,
    NewStreamOf r dial statsd appname serversink w = (Return (streamAt l), w')
    /\ sinksOf (streamAt l) w' = [first]
    /\ (forall j, first <> health.JsonPolling j)
    /\ servers w' = servers w.
Proof.
  intros Hj.
  destruct (NewStream_runs r dial statsd appname serversink w)
    as (l & w' & Hrun & _ & Hsinks & _ & _ & Hsrv).
  unfold jsonSinks in Hsinks. rewrite Hj in Hsinks, Hsrv.
  rewrite app_nil_r in Hsrv.
  eexists l, w', _. split; [exact Hrun|]. split; [exact Hsinks|].
  split; [|exact Hsrv].
  intros j. destruct (nonEmpty statsd); [|discriminate].
  destruct (dial statsd appname).2; discriminate.
Qed.

Lemma NewStream_without_serversink_witness :
  exists l w' first,
    NewStreamOf Recovering reachable "statsd.server:5000" "yourappname" ""
      world0 = (Return (streamAt l), w')
    /\ sinksOf (streamAt l) w' = [first]
    /\ (forall j, first <> health.JsonPolling j)
    /\ servers w' = servers world0.
Proof.
  apply (NewStream_without_serversink Recovering reachable
           "statsd.server:5000" "yourappname" "" world0).
  reflexivity.
Defined.

(** Extra X4: every call of [NewStream] builds a stream of its own.  A call
    leaves the streams that exist untouched and does not move the clock, so
    of two calls in a row the second returns another stream than the first
    and leaves the sinks of the first as they were. *)
Theorem NewStream_streams_independent
    (r r' : Revision) (dial dial' : Dialer)
    (statsd appname serversink statsd' appname' serversink' : string)
    (p1 p2 : StreamPtr) (w w1 w2 : World) :
  NewStreamOf r dial statsd appname serversink w = (Return p1, w1) ->
  NewStreamOf r' dial' statsd' appname' serversink' w1 = (Return p2, w2) ->
  p1 <> p2
  /\ sinksOf p1 w2 = sinksOf p1 w1
  /\ (forall l s, heap w !! l = Some s -> heap w2 !! l = Some s)
  /\ clock w2 = clock w.
Proof.
  intros H1 H2.
  destruct (NewStream_runs_frame r dial statsd appname serversink w)
    as (l1 & w1' & Hrun1 & Hnew1 & Halloc1 & _ & Hframe1 & Hclock1).
  rewrite H1 in Hrun1. injection Hrun1 as -> <-.
  destruct (NewStream_runs_frame r' dial' statsd' appname' serversink' w1)
    as (l2 & w2' & Hrun2 & Hnew2 & _ & _ & Hframe2 & Hclock2).
  rewrite H2 in Hrun2. injection Hrun2 as -> <-.
  assert (Hne : l1 <> l2).
  { intros ->. rewrite Hnew2 in Halloc1. destruct Halloc1; discriminate. }
  split; [congruence|]. split; [|split; [|congruence]].
  - unfold sinksOf. rewrite (Hframe2 l1 Hne). reflexivity.
  - intros l s Hl.
    assert (l <> l1) by congruence.
    assert (heap w1 !! l = Some s) as Hl1 by (rewrite Hframe1; assumption).
    assert (l <> l2) by congruence.
    rewrite Hframe2; assumption.
Qed.

Lemma NewStream_streams_independent_witness :
  streamAt 0%nat <> streamAt 1%nat
  /\ sinksOf (streamAt 0%nat)
       (NewStreamOf Plain reachable "statsd.server:5000" "yourappname"
          "127.0.0.1:5020" world1).2
     = sinksOf (streamAt 0%nat) world1.
Proof.
  destruct (NewStream_streams_independent Plain Plain unreachable reachable
              "" "" "" "statsd.server:5000" "yourappname" "127.0.0.1:5020"
              (streamAt 0%nat) (streamAt 1%nat) world0 world1
              (NewStreamOf Plain reachable "statsd.server:5000" "yourappname"
                 "127.0.0.1:5020" world1).2
              eq_refl eq_refl) as (Hne & Hsinks & _).
  split; assumption.
Defined.

(** Extra X5: with an empty statsd address neither the application name nor
    the network matters: [NewStream] gives the same stream and the same
    world for any two names and any two dial behaviours. *)
Theorem NewStream_empty_statsd_ignores_appname
    (r : Revision) (dial dial' : Dialer)
    (statsd appname appname' serversink : string) (w : World) :
  nonEmpty statsd = false ->
  NewStreamOf r dial statsd appname serversink w =
  NewStreamOf r dial' statsd appname' serversink w.
Proof.
  intros Hs. rewrite NewStreamOf_plain. unfold Ghealth.NewStream.
  rewrite Hs. reflexivity.
Qed.

Lemma NewStream_empty_statsd_ignores_appname_witness :
  NewStreamOf Plain unreachable "" "yourappname" "127.0.0.1:5020" world0 =
  NewStreamOf Plain reachable "" "" "127.0.0.1:5020" world0.
Proof.
  apply (NewStream_empty_statsd_ignores_appname Plain unreachable reachable
           "" "yourappname" "" "127.0.0.1:5020" world0).
  reflexivity.
Defined.

(** ** Further properties of the handlers *)

(** Storing a stream under the stream key replaces what was stored there. *)
Lemma streamSet_twice (r : Revision) (p1 p2 : StreamPtr) (s : Req) :
  streamSet r p2 (streamSet r p1 s) = streamSet r p2 s.
Proof.
  unfold streamSet. cbn [fst snd gin.withKeys gin.Keys gin.RequestURI gin.status].
  rewrite insert_insert_eq. reflexivity.
Qed.

(** [Job] where the stream key holds a stream pointer: the job returned,
    the state left, and the stream still under its key. *)
Lemma Job_with_stream_runs
    (r : Revision) (name : string) (p : StreamPtr) (c : gin.Context) (w : World) :
  gin.Keys c !! streamKey r = Some (anyStream p) ->
  JobOf r name (c, w) =
    (Return (Some {| jobStream := p; JobName := name |}),
     (keySet (jobKey r) (anyTime (clock w)) c, w))
  /\ gin.Keys (keySet (jobKey r) (anyTime (clock w)) c) !! streamKey r =
     Some (anyStream p).
Proof.
  rewrite JobOf_plain, streamKey_plain, jobKey_plain. intros Hkey. split.
  - unfold Ghealth.Job. runReq. rewrite Hkey. reflexivity.
  - unfold keySet. cbn [gin.withKeys gin.Keys].
    rewrite lookup_insert_ne by discriminate. exact Hkey.
Qed.

(** Extra X6: a downstream handler that calls [Job] under the middleware
    always gets a job: whatever the context held before (nothing, or any
    value under the stream key), [Job] returns a non-nil job on the very
    stream the middleware was made with, and the handler goes on in a
    context holding the stream and the start time.  In the revision with
    recovery the same happens inside the deferred recovery. *)
Theorem Health_then_Job
    (name : string) (stream : StreamPtr) (k : option Job -> HandlerFunc)
    (c : gin.Context) (w : World) :
  Ghealth.Health (j <- Ghealth.Job name ;; k j)%go stream (c, w) =
    k (Some {| jobStream := stream; JobName := name |})
      (keySet Ghealth.defaultJobKey (anyTime (clock w))
         (keySet Ghealth.defaultStreamKey (anyStream stream) c), w)
  /\ GhealthRecovery.Health (j <- GhealthRecovery.Job name ;; k j)%go stream (c, w) =
       deferRecover
         (k (Some {| jobStream := stream; JobName := name |}))
         (GhealthRecovery.onPanic stream)
         (keySet GhealthRecovery.defaultJobKey (anyTime (clock w))
            (keySet GhealthRecovery.defaultStreamKey (anyStream stream) c), w).
Proof.
  split.
  - rewrite HealthOf_plain. unfold streamSet, Ghealth.Job. runReq.
    cbn [gin.withKeys gin.Keys streamKey]. rewrite lookup_insert_eq. reflexivity.
  - rewrite HealthOf_recovering. unfold streamSet, GhealthRecovery.Job.
    runReq. cbn [gin.withKeys gin.Keys streamKey].
    rewrite lookup_insert_eq. reflexivity.
Qed.

(** Extra X7: the middleware replaces whatever an earlier middleware stored
    under the stream key: run after another stream was stored, the handler
    behaves as if it had not been.  So when the plain middleware is
    installed twice, the downstream handlers see the stream of the inner
    one only. *)
Theorem Health_inner_stream_wins
    (r : Revision) (next : HandlerFunc) (outer inner : StreamPtr) (s : Req) :
  HealthOf r next inner (streamSet r outer s) = HealthOf r next inner s
  /\ Ghealth.Health (Ghealth.Health next inner) outer s =
     next (streamSet Plain inner s).
Proof.
  split.
  - destruct r; cbn [HealthOf].
    + rewrite !HealthOf_plain, streamSet_twice. reflexivity.
    + rewrite !HealthOf_recovering, streamSet_twice. reflexivity.
  - rewrite !HealthOf_plain, streamSet_twice. reflexivity.
Qed.

(** Extra X8: [Job] can be called again in the same request: the stream
    stays under its key, so the second call returns a job on the same
    stream; there is one start time per request, not per job, as the second
    call replaces the time the first one stored by the time of its own
    call. *)
Theorem Job_again_replaces_start_time
    (r : Revision) (name1 name2 : string) (p : StreamPtr) (later : Time)
    (c : gin.Context) (w : World) :
  gin.Keys c !! streamKey r = Some (anyStream p) ->
  exists c1,
    JobOf r name1 (c, w) =
      (Return (Some {| jobStream := p; JobName := name1 |}), (c1, w))
    /\ gin.Keys c1 !! jobKey r = Some (anyTime (clock w))
    /\ JobOf r name2 (c1, withClock later w) =
         (Return (Some {| jobStream := p; JobName := name2 |}),
          (keySet (jobKey r) (anyTime later) c, withClock later w)).
Proof.
  intros Hkey.
  destruct (Job_with_stream_runs r name1 p c w Hkey) as [Hrun1 Hkeep].
  eexists. split; [exact Hrun1|]. split.
  - unfold keySet. cbn [gin.withKeys gin.Keys]. apply lookup_insert_eq.
  - rewrite (proj1 (Job_with_stream_runs r name2 p _ (withClock later w) Hkeep)).
    unfold keySet. cbn [gin.withKeys gin.Keys gin.RequestURI gin.status
                        withClock clock].
    rewrite insert_insert_eq. reflexivity.
Qed.

Lemma Job_again_replaces_start_time_witness :
  exists c1,
    JobOf Plain "some_route" (requestWith (streamAt 0%nat) "/some/route") =
      (Return (Some {| jobStream := streamAt 0%nat; JobName := "some_route" |}),
       (c1, world0))
    /\ gin.Keys c1 !! jobKey Plain = Some (anyTime (clock world0))
    /\ JobOf Plain "other" (c1, withClock (clock world0 + 7) world0) =
         (Return (Some {| jobStream := streamAt 0%nat; JobName := "other" |}),
          (keySet (jobKey Plain) (anyTime (clock world0 + 7))
             (requestWith (streamAt 0%nat) "/some/route").1,
           withClock (clock world0 + 7) world0)).
Proof.
  apply (Job_again_replaces_start_time Plain "some_route" "other"
           (streamAt 0%nat) (clock world0 + 7)
           (requestWith (streamAt 0%nat) "/some/route").1 world0).
  reflexivity.
Defined.

(** [TimeSince] returns the saturated difference and leaves the world. *)
Lemma TimeSince_runs (r : Revision) (t : Time) (w : World) :
  TimeSinceOf r t w = (Return (time.Sub (clock w) t), w).
Proof. destruct r; reflexivity. Qed.

Lemma Sub_in_range (t u : Time) : - 2 ^ 63 <= time.Sub t u <= 2 ^ 63 - 1.
Proof.
  unfold time.Sub, time.minDuration, time.maxDuration.
  destruct (Z.ltb_spec (t - u) (- 2 ^ 63));
    destruct (Z.ltb_spec (2 ^ 63 - 1) (t - u)); lia.
Qed.

Lemma Sub_monotone (t t' u u' : Time) :
  t <= t' -> u' <= u -> time.Sub t u <= time.Sub t' u'.
Proof.
  intros Ht Hu. unfold time.Sub, time.minDuration, time.maxDuration.
  destruct (Z.ltb_spec (t - u) (- 2 ^ 63));
    destruct (Z.ltb_spec (2 ^ 63 - 1) (t - u));
    destruct (Z.ltb_spec (t' - u') (- 2 ^ 63));
    destruct (Z.ltb_spec (2 ^ 63 - 1) (t' - u')); lia.
Qed.

(** Extra X9: the start time [Job] stores is what [TimeSince] needs: when
    the clock has advanced by [d] nanoseconds since the call of [Job], with
    [d] in the range of a duration, [TimeSince] of the time found under the
    job key returns [d]. *)
Theorem Job_start_time_gives_elapsed
    (r : Revision) (name : string) (p : StreamPtr) (d : Z)
    (c : gin.Context) (w : World) :
  gin.Keys c !! streamKey r = Some (anyStream p) ->
  0 <= d <= 2 ^ 63 - 1 ->
  exists job c1 start,
    JobOf r name (c, w) = (Return job, (c1, w))
    /\ Get (jobKey r) (c1, withClock (clock w + d) w) =
         (Return (Some (anyTime start)), (c1, withClock (clock w + d) w))
    /\ TimeSinceOf r start (withClock (clock w + d) w) =
         (Return d, withClock (clock w + d) w).
Proof.
  intros Hkey Hd.
  destruct (Job_with_stream_runs r name p c w Hkey) as [Hrun _].
  eexists _, _, (clock w). split; [exact Hrun|]. split.
  - unfold Get, keySet. cbn [fst gin.withKeys gin.Keys].
    rewrite lookup_insert_eq. reflexivity.
  - rewrite TimeSince_runs. cbn [withClock clock]. f_equal. f_equal.
    unfold time.Sub, time.minDuration, time.maxDuration.
    destruct (Z.ltb_spec (clock w + d - clock w) (- 2 ^ 63));
      destruct (Z.ltb_spec (2 ^ 63 - 1) (clock w + d - clock w)); lia.
Qed.

Lemma Job_start_time_gives_elapsed_witness :
  exists job c1 start,
    JobOf Plain "some_route" (requestWith (streamAt 0%nat) "/some/route") =
      (Return job, (c1, world0))
    /\ Get (jobKey Plain) (c1, withClock (clock world0 + 1500) world0) =
         (Return (Some (anyTime start)),
          (c1, withClock (clock world0 + 1500) world0))
    /\ TimeSinceOf Plain start (withClock (clock world0 + 1500) world0) =
         (Return 1500, withClock (clock world0 + 1500) world0).
Proof.
  apply (Job_start_time_gives_elapsed Plain "some_route" (streamAt 0%nat) 1500
           (requestWith (streamAt 0%nat) "/some/route").1 world0).
  - reflexivity.
  - vm_compute. split; discriminate.
Defined.

(** Extra X10: the result of [TimeSince] always lies in the range of an
    [int64], and it is monotone: it does not decrease when the clock moves
    forward and does not increase when the start time is later. *)
Theorem TimeSince_monotone_in_range
    (r : Revision) (t t' now now' : Time) (w : World) :
  t' <= t ->
  now <= now' ->
  exists n n',
    TimeSinceOf r t (withClock now w) = (Return n, withClock now w)
    /\ TimeSinceOf r t' (withClock now' w) = (Return n', withClock now' w)
    /\ n <= n'
    /\ - 2 ^ 63 <= n /\ n' <= 2 ^ 63 - 1.
Proof.
  intros Ht Hnow.
  exists (time.Sub now t), (time.Sub now' t').
  rewrite !TimeSince_runs. cbn [withClock clock].
  split; [reflexivity|]. split; [reflexivity|].
  split; [apply Sub_monotone; assumption|].
  split; [apply Sub_in_range|apply Sub_in_range].
Qed.

Lemma TimeSince_monotone_in_range_witness :
  exists n n',
    TimeSinceOf Plain 1000 (withClock 4000 world0)
      = (Return n, withClock 4000 world0)
    /\ TimeSinceOf Plain time.zeroTime (withClock (clock world0) world0)
         = (Return n', withClock (clock world0) world0)
    /\ n <= n'
    /\ - 2 ^ 63 <= n /\ n' <= 2 ^ 63 - 1.
Proof.
  apply (TimeSince_monotone_in_range Plain 1000 time.zeroTime 4000
           (clock world0) world0).
  - vm_compute. discriminate.
  - vm_compute. discriminate.
Defined.



(** Extra X12: under the middleware with recovery, a downstream handler that
    stores something else than a stream under the stream key and then calls
    [Job] does not crash the request: the failed assertion of [Job] is a
    runtime error, hence an error value, so the middleware emits one event
    carrying it on its stream (one built by [health.NewStream]: allocated,
    its embedded job reporting to the stream itself, no nil sink), calls
    [WriteHeader(500)], which sets status 500 unless the response header was
    written before the request reached the middleware, and returns; what
    follows the call of [Job] downstream never runs. *)
Theorem Health_recovery_reports_Job_misuse
    (name general : string) (v : any) (l : loc) (st : health.Stream)
    (k : option Job -> HandlerFunc) (c : gin.Context) (w : World) :
  (forall p, v <> anyStream p) ->
  heap w !! l = Some st ->
  health.embeddedJob st = Some {| jobStream := streamAt l; JobName := general |} ->
  forallb health.liveSink (health.Sinks st) = true ->
  GhealthRecovery.Health
    (Set_ GhealthRecovery.defaultStreamKey v ;;;
     j <- GhealthRecovery.Job name ;; k j)%go
    (streamAt l) (c, w) =
    (Return tt,
     (if gin.written c
      then keySet GhealthRecovery.defaultStreamKey v c
      else gin.withStatus 500 (keySet GhealthRecovery.defaultStreamKey v c),
      withEvents
        (events w ++
           [{| health.evStream := l;
               health.evName := "Panic at " +:+ gin.RequestURI c;
               health.evErr := TypeAssertionError (typeName v) "*health.Stream";
               health.evSinks := health.Sinks st |}])
        w)).
Proof.
  intros Hv Hl Hjob Hlive. rewrite HealthOf_recovering.
  unfold deferRecover, streamSet, GhealthRecovery.Job. runReq.
  cbn [gin.withKeys gin.Keys gin.RequestURI gin.status gin.written streamKey].
  rewrite lookup_insert_eq, insert_insert_eq.
  destruct v as [|p|t|e|m|n]; try (destruct (Hv p eq_refl));
    cbn [recovered];
    rewrite (onPanic_error_runs l st general _ _ w Hl Hjob Hlive); reflexivity.
Qed.

Lemma Health_recovery_reports_Job_misuse_witness :
  GhealthRecovery.Health
    (Set_ GhealthRecovery.defaultStreamKey (anyString "mine") ;;;
     j <- GhealthRecovery.Job "some_route" ;; ret tt)%go
    (streamAt 0%nat) (gin.mkContext ∅ "/some/route" 200 false, world1) =
    (Return tt,
     (gin.mkContext {[ GhealthRecovery.defaultStreamKey := anyString "mine" ]}
        "/some/route" 500 false,
      withEvents
        [{| health.evStream := 0%nat;
            health.evName := "Panic at /some/route";
            health.evErr := TypeAssertionError "string" "*health.Stream";
            health.evSinks := [health.WriterSink health.Stdout] |}]
        world1)).
Proof.
  refine (Health_recovery_reports_Job_misuse "some_route" "general"
            (anyString "mine") 0%nat
            {| health.Sinks := [health.WriterSink health.Stdout];
               health.embeddedJob :=
                 Some {| jobStream := streamAt 0%nat; JobName := "general" |} |}
            (fun _ => ret tt) (gin.mkContext ∅ "/some/route" 200 false) world1
            _ _ _ _).
  - discriminate.
  - reflexivity.
  - reflexivity.
  - reflexivity.
Defined.

(** Extra X13: the stream [NewStream] returns can always take the event of
    a recovered panic, provided [NewStatsDSink] did not return a nil sink
    together with a nil error.  When the middleware with recovery is made
    with that stream and the downstream chain panics with an error, leaving
    the streams as [NewStream] left them, the handler returns normally, the
    one event it emits is received by every sink [NewStream] attached, of
    which there is at least one, and the status is set to 500 unless the
    downstream chain had written the response header. *)
Theorem NewStream_stream_takes_recovered_panic
    (r : Revision) (dial : Dialer) (statsd appname serversink : string)
    (next : HandlerFunc) (stream : StreamPtr) (e : error)
    (w w' w1 : World) (c c1 : gin.Context) :
  NewStreamOf r dial statsd appname serversink w = (Return stream, w') ->
  dial statsd appname <> (None, None) ->
  next (streamSet Recovering stream (c, w')) = (Panic (anyError e), (c1, w1)) ->
  heap w1 = heap w' ->
  exists l,
    stream = streamAt l
    /\ sinksOf stream w' <> []
    /\ GhealthRecovery.Health next stream (c, w') =
         (Return tt,
          (if gin.written c1 then c1 else gin.withStatus 500 c1,
           withEvents
             (events w1 ++
                [{| health.evStream := l;
                    health.evName := "Panic at " +:+ gin.RequestURI c1;
                    health.evErr := e;
                    health.evSinks := sinksOf stream w' |}])
             w1)).
Proof.
  intros Hnew Hdial Hnext Hheap.
  destruct (NewStream_runs_server r dial statsd appname serversink w)
    as (l & w2 & st & Hrun & Hst & Hjob & _).
  destruct (NewStream_runs r dial statsd appname serversink w)
    as (l3 & w3 & Hrun3 & _ & Hsinks & _).
  rewrite Hnew in Hrun, Hrun3.
  injection Hrun as -> <-. injection Hrun3 as <- <-.
  exists l. split; [reflexivity|]. split; [rewrite Hsinks; discriminate|].
  assert (Hlive : forallb health.liveSink (health.Sinks st) = true).
  { unfold sinksOf in Hsinks. rewrite Hst in Hsinks. rewrite Hsinks.
    cbn [forallb]. apply andb_true_intro. split.
    - destruct (nonEmpty statsd); [|reflexivity].
      destruct (dial statsd appname) as [[sink|] [err|]]; cbn [fst snd];
        try reflexivity. destruct (Hdial eq_refl).
    - unfold jsonSinks. destruct (nonEmpty serversink); reflexivity. }
  rewrite HealthOf_recovering. unfold deferRecover. rewrite Hnext.
  cbn [recovered]. unfold sinksOf. rewrite Hst.
  apply (onPanic_error_runs l st "general" e c1 w1); [|exact Hjob|exact Hlive].
  rewrite Hheap. exact Hst.
Qed.

Lemma NewStream_stream_takes_recovered_panic_witness :
  exists l,
    streamAt 0%nat = streamAt l
    /\ sinksOf (streamAt 0%nat) world1 <> []
    /\ GhealthRecovery.Health (panic (anyError (errorString "boom")))
         (streamAt 0%nat) (gin.mkContext ∅ "/some/route" 200 false, world1) =
         (Return tt,
          (gin.withStatus 500
             (keySet GhealthRecovery.defaultStreamKey (anyStream (streamAt 0%nat))
                (gin.mkContext ∅ "/some/route" 200 false)),
           withEvents
             (events world1 ++
                [{| health.evStream := l;
                    health.evName := "Panic at /some/route";
                    health.evErr := errorString "boom";
                    health.evSinks := sinksOf (streamAt 0%nat) world1 |}])
             world1)).
Proof.
  refine (NewStream_stream_takes_recovered_panic Plain unreachable "" "" ""
            (panic (anyError (errorString "boom"))) (streamAt 0%nat)
            (errorString "boom") world0 world1 world1
            (gin.mkContext ∅ "/some/route" 200 false)
            (keySet GhealthRecovery.defaultStreamKey (anyStream (streamAt 0%nat))
               (gin.mkContext ∅ "/some/route" 200 false)) _ _ _ _).
  - reflexivity.
  - discriminate.
  - reflexivity.
  - reflexivity.
Defined.
